(** * LightForceSimulator: the parameter store and its two formulas

    A shallow embedding of [pythonlightforcetravel.py].

    Numbers.  The program computes with Python floats, which are IEEE
    binary64 numbers.  The class is embedded twice.

    In the first embedding floats are exact real numbers, the domain in
    which the specification speaks ("three real numbers", "non-negative
    reals"): rounding, signed zeros, infinities and NaN are not represented.
    What is kept of the float operators is their control flow, i.e. the
    exceptions they raise: [/] raises [ZeroDivisionError] on a zero
    divisor, and [**] raises [ZeroDivisionError] for zero to a negative
    power and [OverflowError] when the result leaves the binary64 range.
    ([*], [+] and [/] never raise on overflow in Python; they are plain real
    operations here.)  The range test is applied to the exact value, so it
    is the binary64 one up to the rounding of the operands.

    In the second embedding, module [Binary64], the same methods compute on
    primitive binary64 floats and can be run: there [+], [*] and [/] round,
    overflow to infinity and underflow to zero.

    The theorems are proved of the first embedding.  An exact equation or a
    strict inequality between computed values is true of it and false of
    the program, as runs of the second embedding show; so what is stated
    about computed values is stated with the slack rounding needs: orders
    are not strict, values are given up to a relative difference of 1e-12,
    and formulas are asserted only on states where no intermediate result
    overflows or underflows ([well_scaled]).  The clamps of
    [set_parameters] and what a call leaves unchanged involve no rounding.

    State.  A method is a function from the object to an outcome and the
    object after the call; an exception leaves the object as it was when
    the exception was raised.

    Console.  [run_simulation] is a function of the lines typed, giving the
    blocks printed, the object at the end and the way the loop was left. *)

From Stdlib Require Import Reals Lra Lia ZArith List Bool Ascii String.
From Stdlib Require Floats.
Import ListNotations.

Local Open Scope R_scope.

(** ** Outcomes of a Python expression or call *)

Inductive exn : Type :=
| ZeroDivisionError
| OverflowError.

(** [NonReal] stands for a result that is not a float: a negative base
    raised to a fractional power evaluates to a Python [complex]. *)
Inductive outcome (A : Type) : Type :=
| Return (a : A)
| Raise (e : exn)
| NonReal.

Arguments Return {A} a.
Arguments Raise {A} e.
Arguments NonReal {A}.

Definition returns {A : Type} (o : outcome A) : Prop :=
  exists a, o = Return a.

(** ** Python's float operators *)

(** [sys.float_info.max], the largest finite binary64 value,
    (2^53 - 1) * 2^971. *)
Definition DBL_MAX : R := Eval cbv in IZR ((2 ^ 53 - 1) * 2 ^ 971).

(** The range test applied to the result of libm's [pow]. *)
Definition in_range (r : R) : outcome R :=
  if Rlt_dec DBL_MAX (Rabs r) then Raise OverflowError else Return r.

(** [max(a, b)]: the first argument is kept unless the second is greater. *)
Definition py_max (a b : R) : R := if Rlt_dec a b then b else a.

(** [min(a, b)]: the first argument is kept unless the second is smaller. *)
Definition py_min (a b : R) : R := if Rlt_dec b a then b else a.

(** [a == b] on floats. *)
Definition py_eq (a b : R) : bool := if Req_dec_T a b then true else false.

(** [a / b] on floats. *)
Definition py_div (a b : R) : outcome R :=
  if py_eq b 0 then Raise ZeroDivisionError else Return (a / b).

(** [y] is integer-valued. *)
Definition is_integer (y : R) : bool := py_eq (IZR (Int_part y)) y.

(** [iv ** iw] on floats (an int exponent is converted to a float first).
    The cases follow the order in which Python decides them. *)
Definition py_pow (iv iw : R) : outcome R :=
  if py_eq iw 0 then Return 1
  else if py_eq iv 0 then
    if Rlt_dec iw 0 then Raise ZeroDivisionError else Return 0
  else if Rlt_dec iv 0 then
    if is_integer iw then
      let sign := if Z.odd (Int_part iw) then -1 else 1 in
      if py_eq (- iv) 1 then Return sign
      else in_range (sign * Rpower (- iv) iw)
    else NonReal
  else if py_eq iv 1 then Return 1
  else in_range (Rpower iv iw).

(** ** The object *)

(** The class attributes (read through [self]) and the three instance
    attributes. *)
Record LightForceSimulator : Type := mkSim {
  C : R;
  RHO_ATM : R;
  K_ENV : R;
  BETA : R;
  A_EFF : R;
  total_intensity_w : R;
  container_volume_m3 : R;
  reflectivity_alpha : R
}.

(** ** Methods as state transformers with exceptions *)

Definition M (A : Type) : Type :=
  LightForceSimulator -> outcome A * LightForceSimulator.

Definition ret {A : Type} (a : A) : M A := fun self => (Return a, self).

Definition bind {A B : Type} (m : M A) (k : A -> M B) : M B :=
  fun self =>
    match m self with
    | (Return a, self') => k a self'
    | (Raise e, self') => (Raise e, self')
    | (NonReal, self') => (NonReal, self')
    end.

(** An expression that reads [self] and may raise. *)
Definition eval {A : Type} (e : LightForceSimulator -> outcome A) : M A :=
  fun self => (e self, self).

(** An assignment to attributes of [self]. *)
Definition assign (f : LightForceSimulator -> LightForceSimulator) : M unit :=
  fun self => (Return tt, f self).

Declare Scope py_scope.
Delimit Scope py_scope with py.
Notation "x <- m ;; k" := (bind m (fun x => k))
  (at level 61, m at next level, right associativity) : py_scope.
Notation "m ;; k" := (bind m (fun _ => k))
  (at level 61, right associativity) : py_scope.
Local Open Scope py_scope.

Definition result {A : Type} (r : outcome A * LightForceSimulator) : outcome A :=
  fst r.

Definition after {A : Type} (r : outcome A * LightForceSimulator)
  : LightForceSimulator := snd r.

(** ** The class *)

(** [LightForceSimulator()]: the class constants and the defaults set by
    [__init__]. *)
Definition __init__ : LightForceSimulator :=
  {| C := 2.99792458e8;
     RHO_ATM := 1.225;
     K_ENV := 1.0;
     BETA := 2.0;
     A_EFF := 1.0;
     total_intensity_w := 50000.0;
     container_volume_m3 := 10.0;
     reflectivity_alpha := 0.95 |}.

Definition set_total_intensity_w (v : R) (self : LightForceSimulator) :=
  mkSim (C self) (RHO_ATM self) (K_ENV self) (BETA self) (A_EFF self)
        v (container_volume_m3 self) (reflectivity_alpha self).

Definition set_container_volume_m3 (v : R) (self : LightForceSimulator) :=
  mkSim (C self) (RHO_ATM self) (K_ENV self) (BETA self) (A_EFF self)
        (total_intensity_w self) v (reflectivity_alpha self).

Definition set_reflectivity_alpha (v : R) (self : LightForceSimulator) :=
  mkSim (C self) (RHO_ATM self) (K_ENV self) (BETA self) (A_EFF self)
        (total_intensity_w self) (container_volume_m3 self) v.

Definition set_parameters (intensity volume alpha : R) : M unit :=
  assign (set_total_intensity_w (py_max 0.0 intensity)) ;;
  assign (set_container_volume_m3 (py_max 0.1 volume)) ;;
  assign (set_reflectivity_alpha (py_min 1.0 (py_max 0.0 alpha))).

Definition calculate_relativistic_mass_density : M R :=
  c2 <- eval (fun self => py_pow (C self) 2) ;;
  rho_rel <- eval (fun self =>
    py_div (total_intensity_w self) (container_volume_m3 self * c2)) ;;
  ret rho_rel.

Definition calculate_light_force_thrust : M (R * R * R) :=
  force_rad_base <- eval (fun self =>
    py_div ((1.0 + reflectivity_alpha self) * total_intensity_w self) (C self)) ;;
  rho_rel <- calculate_relativistic_mass_density ;;
  density_ratio <- eval (fun self =>
    if py_eq (RHO_ATM self) 0 then Return 1.0
    else py_div rho_rel (RHO_ATM self)) ;;
  ratio_to_beta <- eval (fun self => py_pow density_ratio (BETA self)) ;;
  density_amplification <- eval (fun self => Return (K_ENV self * ratio_to_beta)) ;;
  f_thrust <- ret (force_rad_base * density_amplification) ;;
  ret (f_thrust, force_rad_base, rho_rel).

(** ** Histories of the object *)

(** The three operations a caller can apply to the object. *)
Inductive call : Type :=
| call_set_parameters (intensity volume alpha : R)
| call_calculate_relativistic_mass_density
| call_calculate_light_force_thrust.

(** The object after one call, whatever the call's outcome. *)
Definition exec (c : call) (self : LightForceSimulator) : LightForceSimulator :=
  match c with
  | call_set_parameters i v a => after (set_parameters i v a self)
  | call_calculate_relativistic_mass_density =>
      after (calculate_relativistic_mass_density self)
  | call_calculate_light_force_thrust =>
      after (calculate_light_force_thrust self)
  end.

(** The object after a sequence of calls, first call first. *)
Definition run (cs : list call) (self : LightForceSimulator) : LightForceSimulator :=
  fold_left (fun s c => exec c s) cs self.

(** The states an object goes through: a freshly constructed one, and
    whatever any call makes of a reachable one. *)
Inductive reachable : LightForceSimulator -> Prop :=
| reachable_init : reachable __init__
| reachable_exec c self : reachable self -> reachable (exec c self).

(** The clamped ranges of the three parameters. *)
Definition clamp_invariant (self : LightForceSimulator) : Prop :=
  0 <= total_intensity_w self /\
  0.1 <= container_volume_m3 self /\
  0 <= reflectivity_alpha self <= 1.

(** The class attributes, as a tuple. *)
Definition constants (self : LightForceSimulator) : R * R * R * R * R :=
  (C self, RHO_ATM self, K_ENV self, BETA self, A_EFF self).

(** The instance attributes, as a tuple. *)
Definition parameters (self : LightForceSimulator) : R * R * R :=
  (total_intensity_w self, container_volume_m3 self, reflectivity_alpha self).

(** A stored parameter state: the constants are those of the class and the
    parameters are within their clamped ranges. *)
Definition stored (self : LightForceSimulator) : Prop :=
  constants self = constants __init__ /\ clamp_invariant self.

(** The object holding the given parameters, as [set_parameters] leaves it
    when the arguments are already in range. *)
Definition with_parameters (P V a : R) : LightForceSimulator :=
  mkSim (C __init__) (RHO_ATM __init__) (K_ENV __init__) (BETA __init__)
        (A_EFF __init__) P V a.

(** The closed forms, in the specification's words; what the methods above
    compute is compared with them. *)
Definition rho_rel_formula (P V : R) : R := P / (V * 2.99792458e8 ^ 2).

Definition force_rad_base_formula (P a : R) : R := (1 + a) * P / 2.99792458e8.

Definition density_ratio_formula (P V : R) : R := rho_rel_formula P V / 1.225.

Definition thrust_formula (P V a : R) : R :=
  force_rad_base_formula P a * (1.0 * density_ratio_formula P V ^ 2).

(** ** The interactive session: [run_simulation]

    What the session prints is modelled as a list of events, one per
    printed block, carrying the values the block formats (the text and the
    rounding of [:.2f] and [:.3e] are not represented).  What the user
    types is a list of lines; when it is exhausted [input] raises
    [EOFError].  [float] on a line of text is a parameter [py_float], with
    [None] for [ValueError]: the properties of the session hold whatever
    text counts as a number (texts for [inf] and [nan] have no real value
    and are outside the model). *)

(** [c.lower()] on one character; only the ASCII letters matter for the
    comparisons with ['q'], ['r'], ['1'], ['2'], ['3']. *)
Definition lower_ascii (c : ascii) : ascii :=
  let n := nat_of_ascii c in
  if (65 <=? n)%nat && (n <=? 90)%nat then ascii_of_nat (n + 32) else c.

(** [s.lower()]. *)
Fixpoint lower (s : string) : string :=
  match s with
  | EmptyString => EmptyString
  | String c s' => String (lower_ascii c) (lower s')
  end.

(** [choice in (...)]. *)
Definition member (choice : string) (options : list string) : bool :=
  existsb (String.eqb choice) options.

(** The four calls of [input]. *)
Inductive prompt : Type :=
| ChoicePrompt
| PowerPrompt
| VolumePrompt
| ReflectivityPrompt.

(** What the outer [except Exception] can catch: an exception of the
    calculation, or [EOFError] from [input]. *)
Inductive failure : Type :=
| CalculationError (e : exn)
| EOFError.

Inductive event : Type :=
| Banner (c beta : R)
| CurrentParameters (intensity volume alpha : R)
| Prompt (p : prompt)
| SimulationResults (rho_rel f_rad_base f_thrust beta : R)
| InvalidInput
| InvalidChoice
| UnexpectedError (f : failure).

(** How the loop is left: [break] on ['q'], [break] in the handler of an
    unexpected error, or a thrust that is not a float, where the model
    stops. *)
Inductive ending : Type :=
| Quit
| Aborted (f : failure)
| LeftModel.

(** A finished session: what was printed, the object at the end, and how
    the loop was left. *)
Definition session : Type := list event * LightForceSimulator * ending.

Definition output (s : session) : list event := fst (fst s).

Definition final (s : session) : LightForceSimulator := snd (fst s).

Definition how (s : session) : ending := snd s.

Definition prepend (out : list event) (s : session) : session :=
  (out ++ output s, final s, how s).

(** The "Current Parameters" block and the prompt for a choice. *)
Definition display (simulator : LightForceSimulator) : list event :=
  [CurrentParameters (total_intensity_w simulator) (container_volume_m3 simulator)
                     (reflectivity_alpha simulator);
   Prompt ChoicePrompt].

(** The inner [try]: [new_val = float(input(...))], then the call of
    [set_parameters]; [ValueError] is reported and the loop goes on,
    [EOFError] goes to the outer handler. *)
Definition edit {X : Type}
    (break_ : list event -> LightForceSimulator -> ending -> X)
    (again : list event -> list string -> LightForceSimulator -> X)
    (py_float : string -> option R)
    (shown : list event) (p : prompt) (set_new : R -> M unit)
    (lines : list string) (simulator : LightForceSimulator) : X :=
  match lines with
  | [] => break_ (shown ++ [Prompt p; UnexpectedError EOFError]) simulator
                 (Aborted EOFError)
  | text :: lines' =>
      match py_float text with
      | Some new_val =>
          again (shown ++ [Prompt p]) lines' (after (set_new new_val simulator))
      | None => again (shown ++ [Prompt p; InvalidInput]) lines' simulator
      end
  end.

(** One pass through the body of [while True], ending in [break_] where the
    source leaves the loop and in [again] where it goes round again. *)
Definition loop_body {X : Type}
    (break_ : list event -> LightForceSimulator -> ending -> X)
    (again : list event -> list string -> LightForceSimulator -> X)
    (py_float : string -> option R)
    (lines : list string) (simulator : LightForceSimulator) : X :=
  let shown := display simulator in
  match lines with
  | [] => break_ (shown ++ [UnexpectedError EOFError]) simulator (Aborted EOFError)
  | line :: lines' =>
      let choice := lower line in
      if (choice =? "q")%string then break_ shown simulator Quit
      else if (choice =? "r")%string then
        match calculate_light_force_thrust simulator with
        | (Return (f_thrust, f_rad_base, rho_rel), simulator') =>
            again (shown ++ [SimulationResults rho_rel f_rad_base f_thrust
                                               (BETA simulator')])
                  lines' simulator'
        | (Raise e, simulator') =>
            break_ (shown ++ [UnexpectedError (CalculationError e)]) simulator'
                   (Aborted (CalculationError e))
        | (NonReal, simulator') => break_ shown simulator' LeftModel
        end
      else if member choice ["1"; "2"; "3"]%string then
        if (choice =? "1")%string then
          edit break_ again py_float shown PowerPrompt
            (fun new_val =>
               set_parameters new_val (container_volume_m3 simulator)
                              (reflectivity_alpha simulator))
            lines' simulator
        else if (choice =? "2")%string then
          edit break_ again py_float shown VolumePrompt
            (fun new_val =>
               set_parameters (total_intensity_w simulator) new_val
                              (reflectivity_alpha simulator))
            lines' simulator
        else if (choice =? "3")%string then
          edit break_ again py_float shown ReflectivityPrompt
            (fun new_val =>
               set_parameters (total_intensity_w simulator)
                              (container_volume_m3 simulator) new_val)
            lines' simulator
        else again shown lines' simulator
      else again (shown ++ [InvalidChoice]) lines' simulator
  end.

(** [while True: ...], on the lines still to be read. *)
Fixpoint simulation_loop (py_float : string -> option R) (lines : list string)
    (simulator : LightForceSimulator) {struct lines} : session :=
  loop_body (fun out s e => (out, s, e))
            (fun out rest s => prepend out (simulation_loop py_float rest s))
            py_float lines simulator.

Definition run_simulation (py_float : string -> option R) (lines : list string)
  : session :=
  let simulator := __init__ in
  prepend [Banner (C simulator) (BETA simulator)]
          (simulation_loop py_float lines simulator).

(** One pass through the loop body on its own: either the loop is left, or
    it goes round again with the lines not yet read. *)
Inductive pass : Type :=
| Break (out : list event) (simulator : LightForceSimulator) (e : ending)
| Again (out : list event) (rest : list string) (simulator : LightForceSimulator).

Definition iteration : (string -> option R) -> list string ->
                       LightForceSimulator -> pass :=
  loop_body Break Again.

(** The properties of what a session prints. *)
Definition shows_clamped (ev : event) : Prop :=
  match ev with
  | CurrentParameters intensity volume alpha =>
      0 <= intensity /\ 0.1 <= volume /\ 0 <= alpha <= 1
  | _ => True
  end.

Definition reports_only_overflow_or_eof (ev : event) : Prop :=
  match ev with
  | UnexpectedError (CalculationError ZeroDivisionError) => False
  | _ => True
  end.

(** The ways a session that starts from a stored parameter state is left. *)
Definition expected_ending (e : ending) : Prop :=
  e = Quit \/ e = Aborted EOFError \/ e = Aborted (CalculationError OverflowError).

(** A line that selects the editing of a parameter. *)
Definition selects_edit (line : string) : bool :=
  member (lower line) ["1"; "2"; "3"]%string.

(** ** Comparing with binary64

    The statements about values are made so that they hold of the
    binary64 code as well: orders are not strict, values are compared up to
    a relative difference of 1e-12 (the code's three to ten roundings are
    far below it), and only where nothing overflows or underflows. *)





(** ** The class in IEEE binary64

    The methods once more, on primitive binary64 floats, so that they can
    be run: every [+], [*] and [/] rounds, overflows to [infinity] and
    underflows to [0] as Python's does, and comparisons with [nan] are
    false.  The class never assigns its constants, so they are constants
    here and the only power taken is the square ([C ** 2] and
    [density_ratio ** BETA] with [BETA = 2.0]).  The square is computed as
    the rounded product; libm's [pow] can differ from it in the last bit,
    so a run is only relied on where that bit does not matter.  The
    methods only read the object, so they are functions of it. *)
Module Binary64.

Import PrimFloat.
Local Open Scope float_scope.

(** [max(a, b)] and [min(a, b)]. *)
Definition py_max (a b : float) : float := if a <? b then b else a.

Definition py_min (a b : float) : float := if b <? a then b else a.

(** [a / b]. *)
Definition py_div (a b : float) : outcome float :=
  if b =? 0 then Raise ZeroDivisionError else Return (a / b).

(** [iv ** 2.0] (and [iv ** 2]), in the order Python decides the cases:
    nan, an infinite base, a zero base, a negative base (its absolute value
    is taken, the exponent being an even integer), the base 1, and then
    libm's [pow], whose overflow Python turns into [OverflowError] and
    whose underflow it lets through as [0.0]. *)
Definition py_pow_2 (iv : float) : outcome float :=
  if is_nan iv then Return iv
  else if is_infinity iv then Return (abs iv)
  else if iv =? 0 then Return 0
  else
    let iv := abs iv in
    if iv =? 1 then Return 1
    else
      let ix := iv * iv in
      if is_infinity ix then Raise OverflowError else Return ix.

Definition and_then {A B : Type} (o : outcome A) (k : A -> outcome B) : outcome B :=
  match o with
  | Return a => k a
  | Raise e => Raise e
  | NonReal => NonReal
  end.

Definition C : float := 2.99792458e8.

Definition RHO_ATM : float := 1.225.

Definition K_ENV : float := 1.0.

Record LightForceSimulator : Type := mkSim {
  total_intensity_w : float;
  container_volume_m3 : float;
  reflectivity_alpha : float
}.

Definition __init__ : LightForceSimulator :=
  {| total_intensity_w := 50000.0;
     container_volume_m3 := 10.0;
     reflectivity_alpha := 0.95 |}.

Definition set_parameters (intensity volume alpha : float) : LightForceSimulator :=
  {| total_intensity_w := py_max 0.0 intensity;
     container_volume_m3 := py_max 0.1 volume;
     reflectivity_alpha := py_min 1.0 (py_max 0.0 alpha) |}.

Definition calculate_relativistic_mass_density (self : LightForceSimulator)
  : outcome float :=
  and_then (py_pow_2 C) (fun c2 =>
  py_div (total_intensity_w self) (container_volume_m3 self * c2)).

Definition calculate_light_force_thrust (self : LightForceSimulator)
  : outcome (float * float * float) :=
  and_then (py_div ((1.0 + reflectivity_alpha self) * total_intensity_w self) C)
    (fun force_rad_base =>
  and_then (calculate_relativistic_mass_density self) (fun rho_rel =>
  and_then (if RHO_ATM =? 0 then Return 1.0 else py_div rho_rel RHO_ATM)
    (fun density_ratio =>
  and_then (py_pow_2 density_ratio) (fun ratio_to_beta =>
  let density_amplification := K_ENV * ratio_to_beta in
  let f_thrust := force_rad_base * density_amplification in
  Return (f_thrust, force_rad_base, rho_rel))))).

End Binary64.

(** A method that leaves the object as it found it, whatever its outcome. *)
Definition read_only {A : Type} (m : M A) : Prop :=
  forall self, after (m self) = self.

(** * Properties *)

(** ** The float operators on the values the program meets *)

Lemma py_eq_true (a b : R) : a = b -> py_eq a b = true.
Proof. intros H. unfold py_eq. destruct (Req_dec_T a b); [reflexivity | contradiction]. Qed.

Lemma py_eq_false (a b : R) : a <> b -> py_eq a b = false.
Proof. intros H. unfold py_eq. destruct (Req_dec_T a b); [contradiction | reflexivity]. Qed.

Lemma py_max_Rmax (a b : R) : py_max a b = Rmax a b.
Proof.
  unfold py_max, Rmax.
  destruct (Rlt_dec a b), (Rle_dec a b); try reflexivity; lra.
Qed.

Lemma py_min_Rmin (a b : R) : py_min a b = Rmin a b.
Proof.
  unfold py_min, Rmin.
  destruct (Rlt_dec b a), (Rle_dec a b); try reflexivity; lra.
Qed.

Lemma py_div_nonzero (a b : R) : b <> 0 -> py_div a b = Return (a / b).
Proof. intros H. unfold py_div. now rewrite py_eq_false. Qed.

Lemma Rpower_two (x : R) : 0 < x -> Rpower x 2 = x * x.
Proof.
  intros H. change 2 with (INR 2). rewrite Rpower_pow by assumption. simpl. ring.
Qed.

Lemma in_range_inside (r : R) : Rabs r <= DBL_MAX -> in_range r = Return r.
Proof. intros H. unfold in_range. destruct (Rlt_dec DBL_MAX (Rabs r)); [lra | reflexivity]. Qed.

Lemma in_range_outside (r : R) : DBL_MAX < Rabs r -> in_range r = Raise OverflowError.
Proof. intros H. unfold in_range. destruct (Rlt_dec DBL_MAX (Rabs r)); [reflexivity | lra]. Qed.

Lemma DBL_MAX_lower : 1e308 < DBL_MAX.
Proof. unfold DBL_MAX. lra. Qed.

Lemma DBL_MAX_upper : DBL_MAX < 1e309.
Proof. unfold DBL_MAX. lra. Qed.

(** Squaring a non-negative float: the only use of [**] in the program. *)
Lemma py_pow_square (x : R) : 0 <= x -> py_pow x 2 = in_range (x ^ 2).
Proof.
  intros Hx. unfold py_pow.
  rewrite (py_eq_false 2 0) by lra.
  destruct (Req_dec_T x 0) as [-> | Hx0].
  - rewrite py_eq_true by reflexivity.
    destruct (Rlt_dec 2 0); [lra |].
    rewrite in_range_inside.
    + f_equal. ring.
    + replace (0 ^ 2) with 0 by ring. rewrite Rabs_R0.
      pose proof DBL_MAX_lower. lra.
  - rewrite (py_eq_false x 0) by assumption.
    destruct (Rlt_dec x 0); [lra |].
    destruct (Req_dec_T x 1) as [-> | Hx1].
    + rewrite py_eq_true by reflexivity.
      rewrite in_range_inside.
      * f_equal. ring.
      * replace (1 ^ 2) with 1 by ring. rewrite Rabs_R1.
        pose proof DBL_MAX_lower. lra.
    + rewrite (py_eq_false x 1) by assumption.
      rewrite Rpower_two by lra. f_equal. ring.
Qed.

(** The other outcomes of [**], on concrete operands. *)
Example pow_overflow : py_pow 1e200 2 = Raise OverflowError.
Proof.
  rewrite py_pow_square by lra.
  apply in_range_outside.
  rewrite Rabs_pos_eq by nra.
  pose proof DBL_MAX_upper. lra.
Qed.

Example pow_zero_to_negative : py_pow 0 (-1) = Raise ZeroDivisionError.
Proof.
  unfold py_pow.
  rewrite (py_eq_false (-1) 0) by lra.
  rewrite (py_eq_true 0 0) by reflexivity.
  destruct (Rlt_dec (-1) 0); [reflexivity | lra].
Qed.

Lemma half_is_not_an_integer (z : Z) : IZR z <> 0.5.
Proof.
  intros H.
  assert (H2 : IZR (2 * z) = IZR 1) by (rewrite mult_IZR; lra).
  apply eq_IZR in H2. lia.
Qed.

Example pow_negative_to_fraction : py_pow (-8) 0.5 = NonReal.
Proof.
  unfold py_pow, is_integer.
  rewrite (py_eq_false 0.5 0) by lra.
  rewrite (py_eq_false (-8) 0) by lra.
  destruct (Rlt_dec (-8) 0); [| lra].
  rewrite py_eq_false by apply half_is_not_an_integer.
  reflexivity.
Qed.

(** ** Signs and order of quotients and squares *)

Lemma square_abs (x : R) : Rabs (x ^ 2) = x ^ 2.
Proof. apply Rabs_pos_eq. apply pow2_ge_0. Qed.

Lemma div_nonneg (x y : R) : 0 <= x -> 0 < y -> 0 <= x / y.
Proof.
  intros Hx Hy. unfold Rdiv.
  apply Rmult_le_pos; [assumption | left; now apply Rinv_0_lt_compat].
Qed.

Lemma div_pos (x y : R) : 0 < x -> 0 < y -> 0 < x / y.
Proof.
  intros Hx Hy. unfold Rdiv.
  apply Rmult_lt_0_compat; [assumption | now apply Rinv_0_lt_compat].
Qed.

Lemma div_lt_numerator (x x' y : R) : 0 < y -> x < x' -> x / y < x' / y.
Proof.
  intros Hy Hx. unfold Rdiv.
  apply Rmult_lt_compat_r; [now apply Rinv_0_lt_compat | assumption].
Qed.

Lemma div_le_numerator (x x' y : R) : 0 < y -> x <= x' -> x / y <= x' / y.
Proof.
  intros Hy Hx. unfold Rdiv.
  apply Rmult_le_compat_r; [left; now apply Rinv_0_lt_compat | assumption].
Qed.

Lemma div_le_denominator (x y y' : R) :
  0 <= x -> 0 < y -> y <= y' -> x / y' <= x / y.
Proof.
  intros Hx Hy Hyy. unfold Rdiv.
  apply Rmult_le_compat_l; [assumption | apply Rinv_le_contravar; assumption].
Qed.

Lemma div_lt_denominator (x y y' : R) :
  0 < x -> 0 < y -> y < y' -> x / y' < x / y.
Proof.
  intros Hx Hy Hyy. unfold Rdiv.
  apply Rmult_lt_compat_l; [assumption | apply Rinv_lt_contravar; nra].
Qed.

(** ** The closed forms as functions of the parameters *)

Lemma speed_of_light_squared_pos : 0 < 2.99792458e8 ^ 2.
Proof. nra. Qed.

Lemma rho_rel_formula_nonneg (P V : R) : 0 <= P -> 0.1 <= V -> 0 <= rho_rel_formula P V.
Proof.
  intros HP HV. unfold rho_rel_formula.
  pose proof speed_of_light_squared_pos. apply div_nonneg; nra.
Qed.

Lemma density_ratio_formula_nonneg (P V : R) :
  0 <= P -> 0.1 <= V -> 0 <= density_ratio_formula P V.
Proof.
  intros HP HV. unfold density_ratio_formula.
  apply div_nonneg; [now apply rho_rel_formula_nonneg | lra].
Qed.


Lemma density_ratio_formula_le_power (P P' V : R) :
  0.1 <= V -> P <= P' -> density_ratio_formula P V <= density_ratio_formula P' V.
Proof.
  intros HV HP. unfold density_ratio_formula, rho_rel_formula.
  pose proof speed_of_light_squared_pos.
  apply div_le_numerator; [lra |]. apply div_le_numerator; [nra | assumption].
Qed.

Lemma density_ratio_formula_le_volume (P V V' : R) :
  0 <= P -> 0.1 <= V -> V <= V' ->
  density_ratio_formula P V' <= density_ratio_formula P V.
Proof.
  intros HP HV HVV. unfold density_ratio_formula, rho_rel_formula.
  pose proof speed_of_light_squared_pos.
  apply div_le_numerator; [lra |]. apply div_le_denominator; [assumption | nra | nra].
Qed.

Lemma density_ratio_formula_lt_volume (P V V' : R) :
  0 < P -> 0.1 <= V -> V < V' ->
  density_ratio_formula P V' < density_ratio_formula P V.
Proof.
  intros HP HV HVV. unfold density_ratio_formula, rho_rel_formula.
  pose proof speed_of_light_squared_pos.
  apply div_lt_numerator; [lra |]. apply div_lt_denominator; [assumption | nra | nra].
Qed.

Lemma square_le (x y : R) : 0 <= x -> x <= y -> x ^ 2 <= y ^ 2.
Proof. intros Hx Hxy. nra. Qed.

Lemma square_lt (x y : R) : 0 <= x -> x < y -> x ^ 2 < y ^ 2.
Proof. intros Hx Hxy. nra. Qed.










Lemma thrust_formula_lt_volume (P V V' a : R) :
  0 < P -> 0.1 <= V -> V < V' -> 0 <= a ->
  thrust_formula P V' a < thrust_formula P V a.
Proof.
  intros HP HV HVV Ha. unfold thrust_formula.
  assert (Hf : 0 < force_rad_base_formula P a).
  { unfold force_rad_base_formula. apply div_pos; nra. }
  assert (Hd : 0 <= density_ratio_formula P V')
    by (apply density_ratio_formula_nonneg; lra).
  pose proof (density_ratio_formula_lt_volume P V V' HP HV HVV) as Hdd.
  pose proof (square_lt _ _ Hd Hdd) as Hsq.
  apply Rmult_lt_compat_l; lra.
Qed.



(** ** The two calculations on a stored parameter state *)

Lemma stored_constants (self : LightForceSimulator) :
  stored self ->
  C self = 2.99792458e8 /\ RHO_ATM self = 1.225 /\ K_ENV self = 1.0 /\
  BETA self = 2.0 /\ A_EFF self = 1.0.
Proof.
  intros [Hc _]. unfold constants in Hc. simpl in Hc.
  injection Hc as -> -> -> -> ->. repeat split; reflexivity.
Qed.

Lemma speed_of_light_squared_in_range : Rabs (2.99792458e8 ^ 2) <= DBL_MAX.
Proof.
  rewrite square_abs. pose proof DBL_MAX_lower. lra.
Qed.

Section Stored.

Variable self : LightForceSimulator.
Hypothesis Hstored : stored self.

Let P := total_intensity_w self.
Let V := container_volume_m3 self.
Let a := reflectivity_alpha self.

Lemma stored_ranges : 0 <= P /\ 0.1 <= V /\ 0 <= a <= 1.
Proof. destruct Hstored as [_ H]. exact H. Qed.

Lemma density_divisor_nonzero : V * 2.99792458e8 ^ 2 <> 0.
Proof. pose proof stored_ranges as (_ & HV & _). nra. Qed.

(** [C ** 2] is in range and the divisor is positive: the call returns the
    closed form. *)
Lemma density_on_stored :
  calculate_relativistic_mass_density self = (Return (rho_rel_formula P V), self).
Proof.
  destruct (stored_constants self Hstored) as (HC & _).
  unfold calculate_relativistic_mass_density, bind, eval, ret.
  rewrite HC, py_pow_square by lra.
  rewrite in_range_inside by apply speed_of_light_squared_in_range.
  rewrite py_div_nonzero by apply density_divisor_nonzero.
  reflexivity.
Qed.

(** The thrust call, step by step: everything up to the exponentiation
    returns, and the exponentiation decides the outcome. *)
Lemma thrust_on_stored :
  calculate_light_force_thrust self =
  (match in_range (density_ratio_formula P V ^ 2) with
   | Return ratio_to_beta =>
       Return (force_rad_base_formula P a * (1.0 * ratio_to_beta),
               force_rad_base_formula P a,
               rho_rel_formula P V)
   | Raise e => Raise e
   | NonReal => NonReal
   end, self).
Proof.
  destruct (stored_constants self Hstored) as (HC & HRHO & HK & HBETA & _).
  pose proof stored_ranges as (HP & HV & _).
  unfold calculate_light_force_thrust.
  unfold bind at 1. unfold eval at 1.
  rewrite py_div_nonzero by (rewrite HC; lra).
  unfold bind at 1. rewrite density_on_stored.
  unfold bind, eval, ret.
  rewrite HRHO, HBETA, HK, HC.
  rewrite py_eq_false by lra.
  rewrite py_div_nonzero by lra.
  replace 2.0 with 2 by lra.
  rewrite py_pow_square by now apply density_ratio_formula_nonneg.
  fold P V a.
  replace ((1.0 + a) * P / 2.99792458e8) with (force_rad_base_formula P a)
    by (unfold force_rad_base_formula; f_equal; f_equal; lra).
  fold (density_ratio_formula P V).
  destruct (in_range (density_ratio_formula P V ^ 2)); reflexivity.
Qed.

Lemma thrust_returns :
  density_ratio_formula P V ^ 2 <= DBL_MAX ->
  calculate_light_force_thrust self =
  (Return (thrust_formula P V a, force_rad_base_formula P a, rho_rel_formula P V),
   self).
Proof.
  intros H. rewrite thrust_on_stored.
  rewrite in_range_inside by now rewrite square_abs.
  reflexivity.
Qed.

Lemma thrust_overflows :
  DBL_MAX < density_ratio_formula P V ^ 2 ->
  calculate_light_force_thrust self = (Raise OverflowError, self).
Proof.
  intros H. rewrite thrust_on_stored.
  rewrite in_range_outside by now rewrite square_abs.
  reflexivity.
Qed.



End Stored.

(** ** Methods that only read the object *)

Lemma read_only_ret {A : Type} (a : A) : read_only (ret a).
Proof. intros self. reflexivity. Qed.

Lemma read_only_eval {A : Type} (e : LightForceSimulator -> outcome A) :
  read_only (eval e).
Proof. intros self. reflexivity. Qed.

Lemma read_only_bind {A B : Type} (m : M A) (k : A -> M B) :
  read_only m -> (forall a, read_only (k a)) -> read_only (bind m k).
Proof.
  intros Hm Hk self. unfold bind.
  specialize (Hm self). unfold after in Hm.
  destruct (m self) as [[x | e |] self']; simpl in Hm; subst self'.
  - apply Hk.
  - reflexivity.
  - reflexivity.
Qed.

Create HintDb read_only.
#[local] Hint Resolve read_only_ret read_only_eval read_only_bind : read_only.

Lemma density_read_only : read_only calculate_relativistic_mass_density.
Proof. unfold calculate_relativistic_mass_density. auto 10 with read_only. Qed.

#[local] Hint Resolve density_read_only : read_only.

Lemma thrust_read_only : read_only calculate_light_force_thrust.
Proof. unfold calculate_light_force_thrust. auto 20 with read_only. Qed.

(** ** The setter and the histories *)

Lemma set_parameters_run (intensity volume alpha : R) (self : LightForceSimulator) :
  set_parameters intensity volume alpha self =
  (Return tt,
   mkSim (C self) (RHO_ATM self) (K_ENV self) (BETA self) (A_EFF self)
         (Rmax 0 intensity) (Rmax 0.1 volume) (Rmin 1 (Rmax 0 alpha))).
Proof.
  unfold set_parameters, bind, assign. simpl.
  rewrite !py_max_Rmax, py_min_Rmin.
  replace 0.0 with 0 by lra. replace 1.0 with 1 by lra.
  reflexivity.
Qed.

Lemma clamped_ranges (intensity volume alpha : R) :
  0 <= Rmax 0 intensity /\ 0.1 <= Rmax 0.1 volume /\
  0 <= Rmin 1 (Rmax 0 alpha) <= 1.
Proof.
  repeat split.
  - apply Rmax_l.
  - apply Rmax_l.
  - apply Rmin_glb; [lra | apply Rmax_l].
  - apply Rmin_l.
Qed.

Lemma exec_constants (c : call) (self : LightForceSimulator) :
  constants (exec c self) = constants self.
Proof.
  destruct c as [i v a | |]; cbn [exec].
  - rewrite set_parameters_run. reflexivity.
  - now rewrite density_read_only.
  - now rewrite thrust_read_only.
Qed.

Lemma exec_clamp_invariant (c : call) (self : LightForceSimulator) :
  clamp_invariant self -> clamp_invariant (exec c self).
Proof.
  intros H. destruct c as [i v a | |]; cbn [exec].
  - rewrite set_parameters_run. unfold clamp_invariant, after. cbn [snd total_intensity_w container_volume_m3 reflectivity_alpha].
    apply clamped_ranges.
  - now rewrite density_read_only.
  - now rewrite thrust_read_only.
Qed.

Lemma init_stored : stored __init__.
Proof.
  split; [reflexivity |].
  unfold clamp_invariant. simpl. lra.
Qed.

Lemma exec_stored (c : call) (self : LightForceSimulator) :
  stored self -> stored (exec c self).
Proof.
  intros [Hc Hi]. split.
  - now rewrite exec_constants.
  - now apply exec_clamp_invariant.
Qed.

Lemma run_stored (cs : list call) :
  forall self, stored self -> stored (run cs self).
Proof.
  induction cs as [| c cs IH]; intros self H; simpl.
  - exact H.
  - apply IH. now apply exec_stored.
Qed.

Lemma reachable_run (self : LightForceSimulator) :
  reachable self <-> exists cs, self = run cs __init__.
Proof.
  split.
  - induction 1 as [| c self _ [cs ->]].
    + now exists [].
    + exists (cs ++ [c]). unfold run. now rewrite fold_left_app.
  - intros [cs ->]. induction cs as [| c cs IH] using rev_ind.
    + constructor.
    + unfold run. rewrite fold_left_app. simpl. now constructor.
Qed.

Lemma reachable_stored (self : LightForceSimulator) : reachable self -> stored self.
Proof.
  induction 1 as [| c self _ IH]; [exact init_stored | now apply exec_stored].
Qed.

Lemma with_parameters_stored (P V a : R) :
  0 <= P -> 0.1 <= V -> 0 <= a <= 1 -> stored (with_parameters P V a).
Proof.
  intros HP HV Ha. split; [reflexivity |].
  unfold clamp_invariant. simpl. tauto.
Qed.

(** A state with in-range parameters is the one [set_parameters] stores. *)
Lemma with_parameters_set (P V a : R) :
  0 <= P -> 0.1 <= V -> 0 <= a <= 1 ->
  after (set_parameters P V a __init__) = with_parameters P V a.
Proof.
  intros HP HV Ha. rewrite set_parameters_run. unfold after, with_parameters. simpl.
  rewrite (Rmax_right 0 P), (Rmax_right 0.1 V), (Rmax_right 0 a), (Rmin_right 1 a);
    lra || reflexivity.
Qed.

(** ** Concrete runs *)

Lemma default_ratio_in_range : density_ratio_formula 50000.0 10.0 ^ 2 <= DBL_MAX.
Proof.
  unfold density_ratio_formula, rho_rel_formula.
  pose proof DBL_MAX_lower. lra.
Qed.

Lemma small_ratio_in_range (P V : R) :
  0 <= P <= 1e6 -> 0.1 <= V -> density_ratio_formula P V ^ 2 <= DBL_MAX.
Proof.
  intros HP HV.
  pose proof (density_ratio_formula_nonneg P V (proj1 HP) HV) as H0.
  pose proof (density_ratio_formula_le_power P 1e6 V HV (proj2 HP)) as H1.
  pose proof (density_ratio_formula_le_volume 1e6 0.1 V ltac:(lra) ltac:(lra) HV) as H2.
  assert (H3 : density_ratio_formula 1e6 0.1 <= 1).
  { unfold density_ratio_formula, rho_rel_formula. lra. }
  pose proof DBL_MAX_lower. nra.
Qed.

(** The default object: density, base radiation force and thrust. *)
Example default_run :
  exists t f r,
    calculate_light_force_thrust __init__ = (Return (t, f, r), __init__) /\
    calculate_relativistic_mass_density __init__ = (Return r, __init__) /\
    5.563e-14 < r < 5.564e-14 /\
    3.2522e-4 < f < 3.2524e-4 /\
    6.70e-31 < t < 6.72e-31.
Proof.
  rewrite (thrust_returns __init__ init_stored default_ratio_in_range).
  rewrite (density_on_stored __init__ init_stored).
  do 3 eexists. split; [reflexivity |]. split; [reflexivity |].
  simpl. unfold thrust_formula, density_ratio_formula, force_rad_base_formula,
    rho_rel_formula.
  repeat split; lra.
Qed.

(** No power, no density, no force: [set_parameters(0, 10, 0.95)]. *)
Example zero_power_run :
  calculate_light_force_thrust (after (set_parameters 0 10 0.95 __init__)) =
  (Return (0, 0, 0), after (set_parameters 0 10 0.95 __init__)).
Proof.
  rewrite with_parameters_set by lra.
  rewrite thrust_returns.
  - simpl. unfold thrust_formula, density_ratio_formula, force_rad_base_formula,
      rho_rel_formula.
    replace ((1 + 0.95) * 0 / 2.99792458e8) with 0 by lra.
    replace (0 / (10 * 2.99792458e8 ^ 2)) with 0 by lra.
    replace (0 * (1.0 * (0 / 1.225) ^ 2)) with 0 by lra.
    reflexivity.
  - apply with_parameters_stored; lra.
  - apply small_ratio_in_range; simpl; lra.
Qed.

(** Out-of-range arguments: [set_parameters(-3, 0, 1.5)] stores the bounds. *)
Example clamping_run :
  parameters (after (set_parameters (-3) 0 1.5 __init__)) = (0, 0.1, 1).
Proof.
  rewrite set_parameters_run. unfold parameters, after. simpl.
  rewrite (Rmax_left 0 (-3)), (Rmax_left 0.1 0), (Rmax_right 0 1.5), (Rmin_left 1 1.5);
    lra || reflexivity.
Qed.

(** ** Values up to rounding *)










(** * The claims *)




(** C2.  For every triple of real arguments, with no condition on them, and
    on every object, [set_parameters] returns normally (nothing is rejected)
    and leaves an object whose three parameters are exactly
    [max(0, power)], [max(0.1, volume)] and [min(1, max(0, reflectivity))],
    all three replaced together, the class constants being untouched. *)
Theorem set_parameters_clamps (intensity volume alpha : R) (self : LightForceSimulator) :
  result (set_parameters intensity volume alpha self) = Return tt /\
  parameters (after (set_parameters intensity volume alpha self)) =
    (Rmax 0 intensity, Rmax 0.1 volume, Rmin 1 (Rmax 0 alpha)) /\
  constants (after (set_parameters intensity volume alpha self)) = constants self.
Proof.
  rewrite set_parameters_run. repeat split.
Qed.



(** C4.  The freshly constructed object holds power 50000.0, volume 10.0 and
    reflectivity 0.95, and after any sequence of calls to the three methods,
    with arbitrary real arguments to [set_parameters], the parameters satisfy
    power >= 0, volume >= 0.1 and 0 <= reflectivity <= 1, and the constants
    C, RHO_ATM, K_ENV, BETA and A_EFF are the ones the class defines. *)
Theorem reachable_states_clamped :
  parameters __init__ = (50000.0, 10.0, 0.95) /\
  forall cs : list call,
    clamp_invariant (run cs __init__) /\
    constants (run cs __init__) = (2.99792458e8, 1.225, 1.0, 2.0, 1.0).
Proof.
  split; [reflexivity |].
  intros cs. destruct (run_stored cs __init__ init_stored) as [Hc Hi].
  split; [exact Hi | exact Hc].
Qed.











(** C9.  On every object, [calculate_light_force_thrust] and
    [calculate_relativistic_mass_density] leave the object as it was, every
    parameter and every constant included, and a second call of
    [calculate_light_force_thrust] on the object left by the first one gives
    the same outcome, hence the same 3-tuple. *)
Theorem calculations_are_pure (self : LightForceSimulator) :
  after (calculate_light_force_thrust self) = self /\
  after (calculate_relativistic_mass_density self) = self /\
  parameters (after (calculate_light_force_thrust self)) = parameters self /\
  constants (after (calculate_light_force_thrust self)) = constants self /\
  parameters (after (calculate_relativistic_mass_density self)) = parameters self /\
  constants (after (calculate_relativistic_mass_density self)) = constants self /\
  result (calculate_light_force_thrust (after (calculate_light_force_thrust self))) =
    result (calculate_light_force_thrust self).
Proof.
  rewrite thrust_read_only, density_read_only. repeat split.
Qed.



(** * The interactive session *)

(** ** The loop, one pass at a time *)

Ltac split_pass :=
  repeat match goal with
         | |- context [if ?b then _ else _] => destruct b
         | |- context [match ?x with _ => _ end] => destruct x
         end.

Lemma simulation_loop_pass (py_float : string -> option R) (lines : list string)
    (simulator : LightForceSimulator) :
  simulation_loop py_float lines simulator =
  match iteration py_float lines simulator with
  | Break out s e => (out, s, e)
  | Again out rest s => prepend out (simulation_loop py_float rest s)
  end.
Proof.
  unfold iteration.
  destruct lines as [| line lines']; cbn [simulation_loop]; unfold loop_body, edit.
  - reflexivity.
  - split_pass; reflexivity.
Qed.

Lemma iteration_shorter (py_float : string -> option R) (lines rest : list string)
    (simulator s : LightForceSimulator) (out : list event) :
  iteration py_float lines simulator = Again out rest s ->
  (List.length rest < List.length lines)%nat.
Proof.
  unfold iteration, loop_body, edit.
  destruct lines as [| line lines']; [discriminate |].
  split_pass; intros H; try discriminate H; injection H as _ <- _; simpl; lia.
Qed.

(** Induction over the passes of a session. *)
Lemma simulation_loop_ind (py_float : string -> option R)
    (Q : list string -> LightForceSimulator -> session -> Prop) :
  (forall lines simulator out s e,
     iteration py_float lines simulator = Break out s e ->
     Q lines simulator (out, s, e)) ->
  (forall lines simulator out rest s,
     iteration py_float lines simulator = Again out rest s ->
     Q rest s (simulation_loop py_float rest s) ->
     Q lines simulator (prepend out (simulation_loop py_float rest s))) ->
  forall lines simulator, Q lines simulator (simulation_loop py_float lines simulator).
Proof.
  intros Hbreak Hagain lines.
  remember (List.length lines) as n eqn:Hn.
  revert lines Hn. induction n as [n IH] using lt_wf_ind.
  intros lines Hn simulator. rewrite simulation_loop_pass.
  destruct (iteration py_float lines simulator) as [out s e | out rest s] eqn:Hit.
  - now apply Hbreak.
  - apply Hagain; [assumption |].
    apply (IH (List.length rest)); [| reflexivity].
    subst n. eapply iteration_shorter. eassumption.
Qed.

(** ** One pass on a stored parameter state *)

Ltac split_pass_in H :=
  repeat match type of H with
         | context [if ?b then _ else _] => destruct b
         | context [match ?x with _ => _ end] => destruct x eqn:?
         end.

Ltac all_events :=
  repeat (apply Forall_app; split);
  try assumption;
  repeat (apply Forall_cons;
          [first [exact I
                 | match goal with Hc : clamp_invariant _ |- _ => exact Hc end] |]);
  try apply Forall_nil.

Lemma thrust_on_stored_cases (simulator : LightForceSimulator) :
  stored simulator ->
  let P := total_intensity_w simulator in
  let V := container_volume_m3 simulator in
  let a := reflectivity_alpha simulator in
  (density_ratio_formula P V ^ 2 <= DBL_MAX /\
   calculate_light_force_thrust simulator =
   (Return (thrust_formula P V a, force_rad_base_formula P a, rho_rel_formula P V),
    simulator)) \/
  (DBL_MAX < density_ratio_formula P V ^ 2 /\
   calculate_light_force_thrust simulator = (Raise OverflowError, simulator)).
Proof.
  intros Hs P V a.
  destruct (Rle_or_lt (density_ratio_formula P V ^ 2) DBL_MAX) as [Hin | Hout].
  - left. split; [assumption | now apply thrust_returns].
  - right. split; [assumption | now apply thrust_overflows].
Qed.

Lemma display_shows_clamped (simulator : LightForceSimulator) :
  stored simulator -> Forall shows_clamped (display simulator).
Proof.
  intros [_ Hc]. unfold display.
  constructor; [exact Hc | constructor; [exact I | constructor]].
Qed.

Lemma display_reports (simulator : LightForceSimulator) :
  Forall reports_only_overflow_or_eof (display simulator).
Proof. unfold display. all_events. Qed.

Lemma set_parameters_stored (intensity volume alpha : R) (simulator : LightForceSimulator) :
  stored simulator -> stored (after (set_parameters intensity volume alpha simulator)).
Proof. apply (exec_stored (call_set_parameters intensity volume alpha)). Qed.

Lemma iteration_break_stored (py_float : string -> option R) (lines : list string)
    (simulator s : LightForceSimulator) (out : list event) (e : ending) :
  stored simulator ->
  iteration py_float lines simulator = Break out s e ->
  s = simulator /\ Forall shows_clamped out /\
  Forall reports_only_overflow_or_eof out /\ expected_ending e.
Proof.
  intros Hs H.
  pose proof (display_shows_clamped simulator Hs) as Hd.
  pose proof (display_reports simulator) as Hr.
  pose proof (proj2 Hs) as Hc.
  unfold iteration, loop_body, edit in H.
  destruct (thrust_on_stored_cases simulator Hs) as [[_ Ht] | [_ Ht]];
    rewrite Ht in H; clear Ht;
    split_pass_in H; try discriminate H; injection H as <- <- <-;
    (split; [reflexivity |]); (split; [all_events |]); (split; [all_events |]);
    unfold expected_ending;
    first [left; reflexivity | right; left; reflexivity | right; right; reflexivity].
Qed.

Lemma iteration_again_stored (py_float : string -> option R) (lines rest : list string)
    (simulator s : LightForceSimulator) (out : list event) :
  stored simulator ->
  iteration py_float lines simulator = Again out rest s ->
  stored s /\ Forall shows_clamped out /\ Forall reports_only_overflow_or_eof out.
Proof.
  intros Hs H.
  pose proof (display_shows_clamped simulator Hs) as Hd.
  pose proof (display_reports simulator) as Hr.
  pose proof (proj2 Hs) as Hc.
  unfold iteration, loop_body, edit in H.
  destruct (thrust_on_stored_cases simulator Hs) as [[_ Ht] | [_ Ht]];
    rewrite Ht in H; clear Ht;
    split_pass_in H; try discriminate H; injection H as <- <- <-;
    (split; [first [assumption | now apply set_parameters_stored] |]);
    (split; all_events).
Qed.

(** A pass that reads no edit leaves the object alone and reads one line. *)
Lemma iteration_again_no_edit (py_float : string -> option R) (line : string)
    (lines rest : list string) (simulator s : LightForceSimulator) (out : list event) :
  selects_edit line = false ->
  iteration py_float (line :: lines) simulator = Again out rest s ->
  rest = lines /\ s = simulator.
Proof.
  intros Hsel H.
  unfold iteration, loop_body in H. unfold selects_edit in Hsel.
  rewrite Hsel in H.
  pose proof (thrust_read_only simulator) as Hro. unfold after in Hro.
  destruct (calculate_light_force_thrust simulator) as [o s']. simpl in Hro. subst s'.
  split_pass_in H; try discriminate H; injection H as _ <- <-; split; reflexivity.
Qed.

Lemma iteration_break_same (py_float : string -> option R) (lines : list string)
    (simulator s : LightForceSimulator) (out : list event) (e : ending) :
  iteration py_float lines simulator = Break out s e -> s = simulator.
Proof.
  intros H.
  unfold iteration, loop_body, edit in H.
  pose proof (thrust_read_only simulator) as Hro. unfold after in Hro.
  destruct (calculate_light_force_thrust simulator) as [o s']. simpl in Hro. subst s'.
  split_pass_in H; try discriminate H; injection H as _ <- _; reflexivity.
Qed.

(** Lines typed after the ones a pass reads do not change the pass, unless
    the pass ran out of lines. *)
Lemma iteration_break_more (py_float : string -> option R) (lines extra : list string)
    (simulator s : LightForceSimulator) (out : list event) (e : ending) :
  e <> Aborted EOFError ->
  iteration py_float lines simulator = Break out s e ->
  iteration py_float (lines ++ extra) simulator = Break out s e.
Proof.
  intros He H.
  unfold iteration, loop_body, edit in *.
  destruct lines as [| line lines'].
  - injection H as _ _ <-. now contradiction He.
  - rewrite <- app_comm_cons.
    destruct (calculate_light_force_thrust simulator) as [o s'].
    split_pass_in H; try discriminate H; try exact H.
    all: injection H as _ _ <-; now contradiction He.
Qed.

Lemma iteration_again_more (py_float : string -> option R) (lines rest extra : list string)
    (simulator s : LightForceSimulator) (out : list event) :
  iteration py_float lines simulator = Again out rest s ->
  iteration py_float (lines ++ extra) simulator = Again out (rest ++ extra) s.
Proof.
  intros H.
  unfold iteration, loop_body, edit in *.
  destruct lines as [| line lines']; [discriminate H |].
  rewrite <- app_comm_cons.
  destruct (calculate_light_force_thrust simulator) as [o s'].
  split_pass_in H; try discriminate H; injection H as <- <- <-;
    try rewrite <- app_comm_cons;
    repeat match goal with Heq : py_float _ = _ |- _ => rewrite Heq end;
    reflexivity.
Qed.

(** The lines left after a pass are a suffix of the lines before it, and a
    pass that quits has read a line that lowers to ["q"]. *)
Lemma iteration_again_suffix (py_float : string -> option R) (lines rest : list string)
    (simulator s : LightForceSimulator) (out : list event) :
  iteration py_float lines simulator = Again out rest s ->
  exists read, lines = read ++ rest.
Proof.
  intros H.
  unfold iteration, loop_body, edit in H.
  destruct lines as [| line lines']; [discriminate H |].
  destruct (calculate_light_force_thrust simulator) as [o s'].
  split_pass_in H; try discriminate H; injection H as _ <- _;
    first [now exists [line] | now eexists [line; _]].
Qed.

Lemma iteration_quit (py_float : string -> option R) (lines : list string)
    (simulator s : LightForceSimulator) (out : list event) :
  iteration py_float lines simulator = Break out s Quit ->
  exists line rest, lines = line :: rest /\ lower line = "q"%string.
Proof.
  intros H.
  unfold iteration, loop_body, edit in H.
  destruct lines as [| line lines']; [discriminate H |].
  destruct (String.eqb_spec (lower line) "q") as [Hq | Hq].
  - now exists line, lines'.
  - destruct (calculate_light_force_thrust simulator) as [o s'].
    split_pass_in H; discriminate H.
Qed.

(** ** Whole sessions *)

Lemma output_prepend (out : list event) (s : session) :
  output (prepend out s) = out ++ output s.
Proof. reflexivity. Qed.

Lemma final_prepend (out : list event) (s : session) : final (prepend out s) = final s.
Proof. reflexivity. Qed.

Lemma how_prepend (out : list event) (s : session) : how (prepend out s) = how s.
Proof. reflexivity. Qed.

Lemma simulation_loop_stored (py_float : string -> option R) (lines : list string)
    (simulator : LightForceSimulator) :
  stored simulator ->
  Forall shows_clamped (output (simulation_loop py_float lines simulator)) /\
  Forall reports_only_overflow_or_eof (output (simulation_loop py_float lines simulator)) /\
  stored (final (simulation_loop py_float lines simulator)) /\
  expected_ending (how (simulation_loop py_float lines simulator)).
Proof.
  revert lines simulator.
  apply (simulation_loop_ind py_float
           (fun _ simulator ses =>
              stored simulator ->
              Forall shows_clamped (output ses) /\
              Forall reports_only_overflow_or_eof (output ses) /\
              stored (final ses) /\ expected_ending (how ses))).
  - intros lines simulator out s e Hit Hs.
    destruct (iteration_break_stored _ _ _ _ _ _ Hs Hit) as (-> & Hc & Hr & He).
    split; [exact Hc | split; [exact Hr | split; [exact Hs | exact He]]].
  - intros lines simulator out rest s Hit IH Hs.
    destruct (iteration_again_stored _ _ _ _ _ _ Hs Hit) as (Hs' & Hc & Hr).
    destruct (IH Hs') as (IHc & IHr & IHs & IHe).
    rewrite output_prepend, final_prepend, how_prepend, !Forall_app.
    split; [now split | split; [now split | split; [exact IHs | exact IHe]]].
Qed.

(** X1.  Whatever is typed, every "Current Parameters" block that
    [run_simulation] prints shows a power >= 0, a volume >= 0.1 and a
    reflectivity in [0, 1], and the object the session ends with holds the
    class constants and parameters within these ranges. *)
Theorem session_shows_clamped_parameters (py_float : string -> option R)
    (lines : list string) :
  Forall shows_clamped (output (run_simulation py_float lines)) /\
  stored (final (run_simulation py_float lines)).
Proof.
  unfold run_simulation. rewrite output_prepend, final_prepend.
  destruct (simulation_loop_stored py_float lines __init__ init_stored)
    as (Hc & _ & Hs & _).
  split; [| exact Hs].
  apply Forall_cons; [exact I | exact Hc].
Qed.

(** X2.  Whatever is typed, [run_simulation] leaves its loop in one of three
    ways only: ['q'], the end of the input ([EOFError]), or an
    [OverflowError] of the calculation; it never reports a
    [ZeroDivisionError] and never computes a thrust that is not a float. *)
Theorem session_endings (py_float : string -> option R) (lines : list string) :
  Forall reports_only_overflow_or_eof (output (run_simulation py_float lines)) /\
  (how (run_simulation py_float lines) = Quit \/
   how (run_simulation py_float lines) = Aborted EOFError \/
   how (run_simulation py_float lines) = Aborted (CalculationError OverflowError)).
Proof.
  unfold run_simulation. rewrite output_prepend, how_prepend.
  destruct (simulation_loop_stored py_float lines __init__ init_stored)
    as (_ & Hr & _ & He).
  split; [| exact He].
  apply Forall_cons; [exact I | exact Hr].
Qed.

(** ** Editing through the menu *)

(** Decide the comparisons of a known choice with the menu keys. *)
Ltac decide_choice :=
  cbv [member existsb];
  repeat match goal with
         | |- context [String.eqb ?x ?y] =>
             let v := eval vm_compute in (String.eqb x y) in
             change (String.eqb x y) with v
         end;
  cbv [orb]; cbv iota.

Lemma set_parameters_same (self : LightForceSimulator) :
  clamp_invariant self ->
  after (set_parameters (total_intensity_w self) (container_volume_m3 self)
                        (reflectivity_alpha self) self) = self.
Proof.
  intros (HP & HV & Ha). rewrite set_parameters_run. destruct self as [c rho k b ae P V a]; simpl in *.
  rewrite (Rmax_right 0), (Rmax_right 0.1), (Rmax_right 0), (Rmin_right 1);
    lra || reflexivity.
Qed.

Lemma edit_power_alone (x : R) (self : LightForceSimulator) :
  clamp_invariant self ->
  after (set_parameters x (container_volume_m3 self) (reflectivity_alpha self) self) =
  set_total_intensity_w (Rmax 0 x) self.
Proof.
  intros (HP & HV & Ha). rewrite set_parameters_run. destruct self as [c rho k b ae P V a]; simpl in *.
  unfold set_total_intensity_w. simpl.
  rewrite (Rmax_right 0.1), (Rmax_right 0 a), (Rmin_right 1);
    lra || reflexivity.
Qed.

Lemma edit_volume_alone (x : R) (self : LightForceSimulator) :
  clamp_invariant self ->
  after (set_parameters (total_intensity_w self) x (reflectivity_alpha self) self) =
  set_container_volume_m3 (Rmax 0.1 x) self.
Proof.
  intros (HP & HV & Ha). rewrite set_parameters_run. destruct self as [c rho k b ae P V a]; simpl in *.
  unfold set_container_volume_m3. simpl.
  rewrite (Rmax_right 0 P), (Rmax_right 0 a), (Rmin_right 1); lra || reflexivity.
Qed.

Lemma edit_reflectivity_alone (x : R) (self : LightForceSimulator) :
  clamp_invariant self ->
  after (set_parameters (total_intensity_w self) (container_volume_m3 self) x self) =
  set_reflectivity_alpha (Rmin 1 (Rmax 0 x)) self.
Proof.
  intros (HP & HV & Ha). rewrite set_parameters_run. destruct self as [c rho k b ae P V a]; simpl in *.
  unfold set_reflectivity_alpha. simpl.
  rewrite (Rmax_right 0 P), (Rmax_right 0.1); lra || reflexivity.
Qed.

(** X3.  On an object within the clamped ranges, menu choice 1, 2 or 3
    followed by a number x changes one parameter only: the power becomes
    max(0, x), or the volume max(0.1, x), or the reflectivity
    min(1, max(0, x)); the two other parameters and the constants stay
    exactly as they were, and the session goes on with the lines that
    follow. *)
Theorem menu_edit_changes_one_parameter (py_float : string -> option R)
    (line text : string) (rest : list string) (simulator : LightForceSimulator)
    (x : R) :
  clamp_invariant simulator ->
  py_float text = Some x ->
  (lower line = "1"%string ->
   simulation_loop py_float (line :: text :: rest) simulator =
   prepend (display simulator ++ [Prompt PowerPrompt])
           (simulation_loop py_float rest
              (set_total_intensity_w (Rmax 0 x) simulator))) /\
  (lower line = "2"%string ->
   simulation_loop py_float (line :: text :: rest) simulator =
   prepend (display simulator ++ [Prompt VolumePrompt])
           (simulation_loop py_float rest
              (set_container_volume_m3 (Rmax 0.1 x) simulator))) /\
  (lower line = "3"%string ->
   simulation_loop py_float (line :: text :: rest) simulator =
   prepend (display simulator ++ [Prompt ReflectivityPrompt])
           (simulation_loop py_float rest
              (set_reflectivity_alpha (Rmin 1 (Rmax 0 x)) simulator))).
Proof.
  intros Hc Hx.
  repeat split; intros Hl; rewrite simulation_loop_pass;
    unfold iteration, loop_body, edit; rewrite Hl, Hx; decide_choice.
  - now rewrite edit_power_alone.
  - now rewrite edit_volume_alone.
  - now rewrite edit_reflectivity_alone.
Qed.

Lemma menu_edit_changes_one_parameter_witness :
  clamp_invariant __init__ /\
  simulation_loop (fun _ => Some 7) ["1"; "7"; "q"]%string __init__ =
  prepend (display __init__ ++ [Prompt PowerPrompt])
          (simulation_loop (fun _ => Some 7) ["q"]%string
             (set_total_intensity_w (Rmax 0 7) __init__)).
Proof.
  split; [exact (proj2 init_stored) |].
  exact (proj1 (menu_edit_changes_one_parameter (fun _ => Some 7) "1" "7" ["q"%string]
                  __init__ 7 (proj2 init_stored) eq_refl) eq_refl).
Defined.

(** X4.  A non-numeric answer to a value prompt ([ValueError]) is reported
    and changes nothing: the session goes on with the same object.  This
    holds on every object. *)
Theorem invalid_number_changes_nothing (py_float : string -> option R)
    (line text : string) (rest : list string) (simulator : LightForceSimulator) :
  selects_edit line = true ->
  py_float text = None ->
  exists p,
    simulation_loop py_float (line :: text :: rest) simulator =
    prepend (display simulator ++ [Prompt p; InvalidInput])
            (simulation_loop py_float rest simulator).
Proof.
  intros Hsel Hx. unfold selects_edit, member in Hsel. simpl in Hsel.
  rewrite simulation_loop_pass. unfold iteration, loop_body, edit.
  unfold member. simpl existsb.
  destruct (String.eqb_spec (lower line) "1") as [H1 | H1];
    [| destruct (String.eqb_spec (lower line) "2") as [H2 | H2];
       [| destruct (String.eqb_spec (lower line) "3") as [H3 | H3];
          [| discriminate Hsel]]].
  - rewrite H1, Hx. decide_choice. now exists PowerPrompt.
  - rewrite H2, Hx. decide_choice. now exists VolumePrompt.
  - rewrite H3, Hx. decide_choice. now exists ReflectivityPrompt.
Qed.

Lemma invalid_number_changes_nothing_witness :
  selects_edit "2" = true /\
  exists p,
    simulation_loop (fun _ => None) ["2"; "ten"; "q"]%string __init__ =
    prepend (display __init__ ++ [Prompt p; InvalidInput])
            (simulation_loop (fun _ => None) ["q"]%string __init__).
Proof.
  split; [reflexivity |].
  exact (invalid_number_changes_nothing (fun _ => None) "2" "ten" ["q"%string]
           __init__ eq_refl eq_refl).
Defined.

(** ** What a session reads and what it changes *)

(** X5.  The parameters change through menu choices 1, 2 and 3 only: if no
    line typed lowers to ["1"], ["2"] or ["3"], the object at the end of the
    session is the object at its start, whatever else is typed (runs,
    invalid choices, quit) and however the session ends. *)
Theorem parameters_change_only_by_edit (py_float : string -> option R)
    (lines : list string) (simulator : LightForceSimulator) :
  Forall (fun line => selects_edit line = false) lines ->
  final (simulation_loop py_float lines simulator) = simulator.
Proof.
  revert lines simulator.
  apply (simulation_loop_ind py_float
           (fun lines simulator ses =>
              Forall (fun line => selects_edit line = false) lines ->
              final ses = simulator)).
  - intros lines simulator out s e Hit _.
    apply (iteration_break_same _ _ _ _ _ _ Hit).
  - intros lines simulator out rest s Hit IH Hall.
    destruct lines as [| line lines']; [discriminate Hit |].
    inversion Hall as [| ? ? Hline Hrest]; subst.
    destruct (iteration_again_no_edit _ _ _ _ _ _ _ Hline Hit) as [-> ->].
    rewrite final_prepend. now apply IH.
Qed.

Lemma parameters_change_only_by_edit_witness :
  Forall (fun line => selects_edit line = false) ["R"; "x"; "q"]%string /\
  final (simulation_loop (fun _ => None) ["R"; "x"; "q"]%string __init__) = __init__.
Proof.
  assert (H : Forall (fun line => selects_edit line = false) ["R"; "x"; "q"]%string)
    by (repeat constructor).
  split; [exact H |].
  exact (parameters_change_only_by_edit (fun _ => None) _ __init__ H).
Defined.

(** X6.  Once the loop is left by ['q'] or by an error of the calculation,
    nothing more is read: lines typed after those the session has read
    change neither what is printed, nor the final object, nor the way the
    session ends.  (A session that ends on [EOFError] is the one that
    would have read more.) *)
Theorem nothing_is_read_after_the_end (py_float : string -> option R)
    (lines : list string) (simulator : LightForceSimulator) :
  how (simulation_loop py_float lines simulator) <> Aborted EOFError ->
  forall extra : list string,
    simulation_loop py_float (lines ++ extra) simulator =
    simulation_loop py_float lines simulator.
Proof.
  revert lines simulator.
  apply (simulation_loop_ind py_float
           (fun lines simulator ses =>
              how ses <> Aborted EOFError ->
              forall extra, simulation_loop py_float (lines ++ extra) simulator = ses)).
  - intros lines simulator out s e Hit He extra.
    rewrite simulation_loop_pass.
    now rewrite (iteration_break_more _ _ extra _ _ _ _ He Hit).
  - intros lines simulator out rest s Hit IH He extra.
    rewrite how_prepend in He.
    rewrite simulation_loop_pass.
    rewrite (iteration_again_more _ _ _ extra _ _ _ Hit).
    now rewrite IH.
Qed.

Lemma nothing_is_read_after_the_end_witness :
  how (simulation_loop (fun _ => None) ["Q"]%string __init__) <> Aborted EOFError /\
  simulation_loop (fun _ => None)
    (["Q"%string] ++ ["1"%string; "5"%string; "r"%string]) __init__ =
  simulation_loop (fun _ => None) ["Q"]%string __init__.
Proof.
  assert (H : how (simulation_loop (fun _ => None) ["Q"]%string __init__)
              <> Aborted EOFError) by discriminate.
  split; [exact H |].
  exact (nothing_is_read_after_the_end (fun _ => None) _ __init__ H _).
Defined.

(** X7.  A session ends by quitting only if one of the lines typed lowers
    to ["q"]. *)
Theorem quit_needs_q (py_float : string -> option R) (lines : list string)
    (simulator : LightForceSimulator) :
  how (simulation_loop py_float lines simulator) = Quit ->
  Exists (fun line => lower line = "q"%string) lines.
Proof.
  revert lines simulator.
  apply (simulation_loop_ind py_float
           (fun lines simulator ses =>
              how ses = Quit -> Exists (fun line => lower line = "q"%string) lines)).
  - intros lines simulator out s e Hit He. simpl in He. subst e.
    destruct (iteration_quit _ _ _ _ _ Hit) as (line & rest & -> & Hq).
    now apply Exists_cons_hd.
  - intros lines simulator out rest s Hit IH He.
    rewrite how_prepend in He.
    destruct (iteration_again_suffix _ _ _ _ _ _ Hit) as [read ->].
    apply Exists_app. right. now apply IH.
Qed.

Lemma quit_needs_q_witness :
  how (simulation_loop (fun _ => None) ["x"; "Q"]%string __init__) = Quit /\
  Exists (fun line => lower line = "q"%string) ["x"; "Q"]%string.
Proof.
  assert (H : how (simulation_loop (fun _ => None) ["x"; "Q"]%string __init__) = Quit)
    by reflexivity.
  split; [exact H |].
  exact (quit_needs_q (fun _ => None) _ __init__ H).
Defined.



Lemma iteration_break_without_q_r (py_float : string -> option R) (lines : list string)
    (simulator s : LightForceSimulator) (out : list event) (e : ending) :
  Forall (fun line => lower line <> "q"%string /\ lower line <> "r"%string) lines ->
  iteration py_float lines simulator = Break out s e ->
  e = Aborted EOFError.
Proof.
  intros Hall H.
  unfold iteration, loop_body, edit in H.
  destruct lines as [| line lines'].
  - now injection H as _ _ <-.
  - inversion Hall as [| ? ? [Hq Hr] _]; subst.
    destruct (String.eqb_spec (lower line) "q") as [Eq | _]; [contradiction |].
    destruct (String.eqb_spec (lower line) "r") as [Er | _]; [contradiction |].
    split_pass_in H; try discriminate H; now injection H as _ _ <-.
Qed.

(** X9.  The loop never stops by itself: if no line typed lowers to ["q"] or
    ["r"], the session reads on until the input is exhausted and ends on
    [EOFError], on every object and whatever the other lines are. *)
Theorem session_without_q_r_ends_on_eof (py_float : string -> option R)
    (lines : list string) (simulator : LightForceSimulator) :
  Forall (fun line => lower line <> "q"%string /\ lower line <> "r"%string) lines ->
  how (simulation_loop py_float lines simulator) = Aborted EOFError.
Proof.
  revert lines simulator.
  apply (simulation_loop_ind py_float
           (fun lines simulator ses =>
              Forall (fun line => lower line <> "q"%string /\ lower line <> "r"%string)
                     lines ->
              how ses = Aborted EOFError)).
  - intros lines simulator out s e Hit Hall.
    exact (iteration_break_without_q_r _ _ _ _ _ _ Hall Hit).
  - intros lines simulator out rest s Hit IH Hall.
    rewrite how_prepend. apply IH.
    destruct (iteration_again_suffix _ _ _ _ _ _ Hit) as [read ->].
    apply Forall_app in Hall. apply Hall.
Qed.

Lemma session_without_q_r_ends_on_eof_witness :
  Forall (fun line => lower line <> "q"%string /\ lower line <> "r"%string)
         ["1"; "5"; "x"]%string /\
  how (simulation_loop (fun _ => Some 5) ["1"; "5"; "x"]%string __init__) =
  Aborted EOFError.
Proof.
  assert (H : Forall (fun line => lower line <> "q"%string /\ lower line <> "r"%string)
                     ["1"; "5"; "x"]%string)
    by (repeat constructor; discriminate).
  split; [exact H |].
  exact (session_without_q_r_ends_on_eof (fun _ => Some 5) _ __init__ H).
Defined.

(** * Further properties of the class *)

(** X10.  Passing an object's own parameters back to [set_parameters]
    changes nothing once they are within the clamped ranges, and they are
    within these ranges after any call of [set_parameters]: clamping is
    idempotent.  (This is what lets the menu pass the two parameters it
    does not edit.) *)
Theorem set_parameters_idempotent (self : LightForceSimulator) :
  (clamp_invariant self ->
   after (set_parameters (total_intensity_w self) (container_volume_m3 self)
                         (reflectivity_alpha self) self) = self) /\
  forall intensity volume alpha : R,
    let stored1 := after (set_parameters intensity volume alpha self) in
    after (set_parameters (total_intensity_w stored1) (container_volume_m3 stored1)
                          (reflectivity_alpha stored1) stored1) = stored1.
Proof.
  split; [apply set_parameters_same |].
  intros intensity volume alpha stored1. apply set_parameters_same.
  unfold stored1. rewrite set_parameters_run. unfold clamp_invariant, after.
  cbn [snd total_intensity_w container_volume_m3 reflectivity_alpha].
  apply clamped_ranges.
Qed.

Lemma set_parameters_idempotent_witness :
  clamp_invariant __init__ /\
  after (set_parameters 50000.0 10.0 0.95 __init__) = __init__.
Proof.
  split; [exact (proj2 init_stored) |].
  exact (proj1 (set_parameters_idempotent __init__) (proj2 init_stored)).
Defined.

(** X11.  [set_parameters] overwrites: the object after two calls is the
    object after the second call alone, whatever the first call stored. *)
Theorem set_parameters_last_call_wins
    (intensity1 volume1 alpha1 intensity2 volume2 alpha2 : R)
    (self : LightForceSimulator) :
  after (set_parameters intensity2 volume2 alpha2
           (after (set_parameters intensity1 volume1 alpha1 self))) =
  after (set_parameters intensity2 volume2 alpha2 self).
Proof.
  now rewrite !set_parameters_run.
Qed.

(** X12.  A power that is zero or negative is stored as 0, and then, for
    every volume and reflectivity passed with it, the density is 0 and the
    thrust call returns (0, 0, 0): it never raises there. *)
Theorem no_power_no_thrust (intensity volume alpha : R) (self : LightForceSimulator) :
  constants self = constants __init__ ->
  intensity <= 0 ->
  let cleared := after (set_parameters intensity volume alpha self) in
  total_intensity_w cleared = 0 /\
  calculate_relativistic_mass_density cleared = (Return 0, cleared) /\
  calculate_light_force_thrust cleared = (Return (0, 0, 0), cleared).
Proof.
  intros Hc Hi cleared.
  assert (Hs : stored cleared).
  { split.
    - unfold cleared. rewrite set_parameters_run. exact Hc.
    - unfold cleared. rewrite set_parameters_run. unfold clamp_invariant, after.
      cbn [snd total_intensity_w container_volume_m3 reflectivity_alpha].
      apply clamped_ranges. }
  assert (HP : total_intensity_w cleared = 0).
  { unfold cleared. rewrite set_parameters_run. simpl. now apply Rmax_left. }
  pose proof (stored_ranges cleared Hs) as (_ & HV & _).
  assert (Hrho : rho_rel_formula 0 (container_volume_m3 cleared) = 0)
    by (unfold rho_rel_formula, Rdiv; ring).
  assert (Hf : force_rad_base_formula 0 (reflectivity_alpha cleared) = 0)
    by (unfold force_rad_base_formula, Rdiv; ring).
  assert (Ht : thrust_formula 0 (container_volume_m3 cleared)
                 (reflectivity_alpha cleared) = 0)
    by (unfold thrust_formula; rewrite Hf; ring).
  split; [exact HP |]. split.
  - rewrite (density_on_stored cleared Hs), HP, Hrho. reflexivity.
  - rewrite (thrust_returns cleared Hs).
    + rewrite HP, Hrho, Hf, Ht. reflexivity.
    + rewrite HP. unfold density_ratio_formula. rewrite Hrho.
      replace ((0 / 1.225) ^ 2) with 0 by (unfold Rdiv; ring).
      pose proof DBL_MAX_lower. lra.
Qed.

Lemma no_power_no_thrust_witness :
  constants __init__ = constants __init__ /\ -5 <= 0 /\
  calculate_light_force_thrust (after (set_parameters (-5) 2 0.5 __init__)) =
  (Return (0, 0, 0), after (set_parameters (-5) 2 0.5 __init__)).
Proof.
  split; [reflexivity |]. split; [lra |].
  exact (proj2 (proj2 (no_power_no_thrust (-5) 2 0.5 __init__ eq_refl
                         ltac:(lra)))).
Defined.



(** X14.  On a stored parameter state, the power per volume decides whether
    the thrust call returns: up to 1e171 W/m^3 it always returns, and from
    2e171 W/m^3 on it always raises [OverflowError]. *)
Theorem thrust_overflow_threshold (self : LightForceSimulator) :
  stored self ->
  (total_intensity_w self <= 1e171 * container_volume_m3 self ->
   returns (result (calculate_light_force_thrust self))) /\
  (2e171 * container_volume_m3 self <= total_intensity_w self ->
   result (calculate_light_force_thrust self) = Raise OverflowError).
Proof.
  intros Hs.
  pose proof (stored_ranges self Hs) as (HP & HV & _).
  set (P := total_intensity_w self) in *. set (V := container_volume_m3 self) in *.
  assert (Hratio : density_ratio_formula P V = P / V / (2.99792458e8 ^ 2 * 1.225)).
  { unfold density_ratio_formula, rho_rel_formula. field. lra. }
  assert (Hk : 0 <= P / V) by (apply div_nonneg; lra).
  split; intros H.
  - assert (Hle : P / V <= 1e171).
    { apply (Rmult_le_reg_r V); [lra |].
      replace (P / V * V) with P by (field; lra). lra. }
    rewrite (thrust_returns self Hs); [now eexists |].
    fold P V. rewrite Hratio.
    apply Rle_trans with ((1e171 / (2.99792458e8 ^ 2 * 1.225)) ^ 2).
    + apply square_le; [apply div_nonneg; [assumption | nra] |].
      apply div_le_numerator; [nra | assumption].
    + pose proof DBL_MAX_lower. lra.
  - assert (Hge : 2e171 <= P / V).
    { apply (Rmult_le_reg_r V); [lra |].
      replace (P / V * V) with P by (field; lra). lra. }
    rewrite (thrust_overflows self Hs); [reflexivity |].
    fold P V. rewrite Hratio.
    apply Rlt_le_trans with ((2e171 / (2.99792458e8 ^ 2 * 1.225)) ^ 2).
    + unfold DBL_MAX. lra.
    + apply square_le; [apply div_nonneg; nra |].
      apply div_le_numerator; [nra | assumption].
Qed.

Lemma thrust_overflow_threshold_witness :
  stored __init__ /\
  total_intensity_w __init__ <= 1e171 * container_volume_m3 __init__ /\
  returns (result (calculate_light_force_thrust __init__)).
Proof.
  assert (H : total_intensity_w __init__ <= 1e171 * container_volume_m3 __init__)
    by (simpl; lra).
  split; [exact init_stored |]. split; [exact H |].
  exact (proj1 (thrust_overflow_threshold __init__ init_stored) H).
Defined.

(** X15.  On every object, stored or not, the third value a thrust call
    returns is the value [calculate_relativistic_mass_density] returns on
    that object: the thrust call returns only if the density call does. *)
Theorem thrust_reports_the_density (self : LightForceSimulator) (t f r : R) :
  result (calculate_light_force_thrust self) = Return (t, f, r) ->
  calculate_relativistic_mass_density self = (Return r, self).
Proof.
  intros H.
  pose proof (density_read_only self) as Hro. unfold after in Hro.
  unfold calculate_light_force_thrust, result in H.
  unfold bind at 1 in H. unfold eval at 1 in H.
  destruct (py_div _ (C self)) as [frb | e |]; try discriminate H.
  unfold bind at 1 in H.
  destruct (calculate_relativistic_mass_density self) as [[rho | e |] s'];
    simpl in Hro; subst s'; try discriminate H.
  unfold bind, eval, ret in H.
  split_pass_in H; try discriminate H.
  all: simpl in H; injection H as _ _ <-; reflexivity.
Qed.

Lemma thrust_reports_the_density_witness :
  calculate_relativistic_mass_density __init__ =
  (Return (rho_rel_formula 50000.0 10.0), __init__).
Proof.
  refine (thrust_reports_the_density __init__ _ _ _ _).
  rewrite (thrust_returns __init__ init_stored default_ratio_in_range). reflexivity.
Defined.

(** * Runs of the binary64 class

    What lines 28-86 compute on chosen inputs, by evaluation.  None of
    these runs depends on the last bit of a power: the thrusts compared
    are exactly zero, infinite, or computed from identical operands. *)
Module Binary64Runs.

Import PrimFloat.
Local Open Scope float_scope.

(** The default object is within the class's own ranges, and its run
    returns a finite positive tuple. *)
Lemma binary64_default_run :
  exists t f r,
    Binary64.calculate_light_force_thrust Binary64.__init__ = Return (t, f, r) /\
    (0 <? t) = true /\ (0 <? f) = true /\ (0 <? r) = true /\
    is_infinity t = false.
Proof. vm_compute. do 3 eexists. repeat split. Qed.

(** The products of lines 50 and 84 overflow silently: with the power
    1e120 in the volume 0.1 the squared ratio is about 8e207, within
    range, and the thrust returned is [infinity]; with 1e308 and 1e300 the
    divisor of line 50 is [infinity], the density 0.0 and the thrust
    [infinity * 0.0]. *)
Lemma thrust_infinite_at_1e120 :
  exists f r,
    Binary64.calculate_light_force_thrust (Binary64.set_parameters 1e120 0.1 0.95)
    = Return (infinity, f, r).
Proof. vm_compute. now do 2 eexists. Qed.

Lemma thrust_nan_at_1e308 :
  Binary64.calculate_light_force_thrust (Binary64.set_parameters 1e308 1e300 0.95)
  = Return (nan, infinity, 0).
Proof. vm_compute. reflexivity. Qed.




End Binary64Runs.
